(** * Batch/single-image normalisation and dispatch of deepface's models

    A shallow embedding of [deepface/models/Demography.py] (the shape
    normaliser [_preprocess_batch_or_single_input] and the batch
    dispatcher [_predict_internal]) and of the [preprocess]/[forward]
    pair of [deepface/models/facial_recognition/Buffalo_L.py].

    A numpy array is a shape together with its elements in row-major
    order.  None of the embedded functions computes with the elements:
    they only look at shapes and move elements around, so the element
    type is a parameter.  The neural network behind a model object is a
    parameter too: a record of functions that may raise.  Calls to it are
    recorded in a trace, so that "no inference path was invoked" is a
    statement about the trace. *)

From Stdlib Require Import String List Arith Bool Lia.
Import ListNotations.

Set Implicit Arguments.

(** ** Python exceptions and results *)

Inductive exn : Type :=
| NotImplementedError (msg : string)
| AssertionError (msg : string)
| ValueError (msg : string)
| IndexError (msg : string)
| AttributeError (msg : string)
| RuntimeError (msg : string).

Inductive result (X : Type) : Type :=
| Ok (x : X)
| Raise (e : exn).

Arguments Ok {X} x.
Arguments Raise {X} e.

Definition rbind {X Y : Type} (r : result X) (k : X -> result Y) : result Y :=
  match r with
  | Ok x => k x
  | Raise e => Raise e
  end.

(** ** numpy arrays *)

Module Numpy.

Section Ndarray.

Context {A : Type}.

Record ndarray : Type := mk_ndarray { shape : list nat; data : list A }.

(** Number of elements of an array of shape [s]. *)
Definition size_of (s : list nat) : nat := fold_right Nat.mul 1 s.

Definition ndim (a : ndarray) : nat := length (shape a).

(** Every array numpy builds holds as many elements as its shape says. *)
Definition wf (a : ndarray) : Prop := length (data a) = size_of (shape a).

Definition shape_eqb (s t : list nat) : bool :=
  if list_eq_dec Nat.eq_dec s t then true else false.

(** [a.shape[0]]. *)
Definition shape_0 (a : ndarray) : result nat :=
  match shape a with
  | [] => Raise (IndexError "tuple index out of range")
  | d :: _ => Ok d
  end.

(** [a.squeeze()]: every axis of length one is dropped. *)
Definition squeeze (a : ndarray) : ndarray :=
  mk_ndarray (filter (fun d => negb (d =? 1)) (shape a)) (data a).

(** [a.squeeze(0)]: axis 0 is dropped, and must have length one. *)
Definition squeeze_axis0 (a : ndarray) : result ndarray :=
  match shape a with
  | [] => Raise (ValueError "axis 0 is out of bounds for array of dimension 0")
  | d :: s =>
      if d =? 1 then Ok (mk_ndarray s (data a))
      else Raise (ValueError
        "cannot select an axis to squeeze out which has size not equal to one")
  end.

(** [np.expand_dims(a, axis=0)]. *)
Definition expand_dims0 (a : ndarray) : ndarray :=
  mk_ndarray (1 :: shape a) (data a).

(** [np.array(l)] on a list of arrays of one dtype (the arrays of a list
    share the element type [A]): the arrays are stacked in the order of the
    list along a new leading axis, their elements copied as they are.  A
    list that mixes dtypes is converted by numpy to a common dtype, which
    changes element values; such lists are outside this model.  Arrays of
    different shapes are refused (numpy 1.24 and later raise ValueError). *)
Definition np_array (l : list ndarray) : result ndarray :=
  match l with
  | [] => Ok (mk_ndarray [0] [])
  | x :: xs =>
      if forallb (fun y => shape_eqb (shape y) (shape x)) xs
      then Ok (mk_ndarray (length l :: shape x) (concat (map data l)))
      else Raise (ValueError
        "setting an array element with a sequence. The requested array has an inhomogeneous shape")
  end.

(** [a[k]] for a non-negative [k]: the [k]-th sub-array along axis 0. *)
Definition getitem (a : ndarray) (k : nat) : result ndarray :=
  match shape a with
  | [] => Raise (IndexError "too many indices for array")
  | d :: s =>
      if k <? d
      then Ok (mk_ndarray s (firstn (size_of s) (skipn (k * size_of s) (data a))))
      else Raise (IndexError "index is out of bounds for axis 0")
  end.

(** [a[0, :]]: two indices, so at least two axes are needed. *)
Definition getitem_0_all (a : ndarray) : result ndarray :=
  if ndim a <? 2 then Raise (IndexError "too many indices for array")
  else getitem a 0.

(** [a.flatten()]. *)
Definition flatten (a : ndarray) : ndarray :=
  mk_ndarray [length (data a)] (data a).

(** [n] consecutive pieces of [len] elements each, off the front of [l]. *)
Fixpoint pieces (n len : nat) (l : list A) : list (list A) :=
  match n with
  | 0 => []
  | S n' => firstn len l :: pieces n' len (skipn len l)
  end.

(** [a[:, :, ::-1]]: axis 2 is reversed; three slices need three axes. *)
Definition reverse_axis2 (a : ndarray) : result ndarray :=
  match shape a with
  | d0 :: d1 :: d2 :: rest =>
      let inner := size_of rest in
      Ok (mk_ndarray (shape a)
            (concat (map (fun blk => concat (rev (pieces d2 inner blk)))
                         (pieces (d0 * d1) (d2 * inner) (data a)))))
  | _ => Raise (IndexError "too many indices for array")
  end.

End Ndarray.

Arguments ndarray A : clear implicits.

End Numpy.

Import Numpy.

(** ** deepface/models/Demography.py *)

Module Demography.

(** An attribute of an instance: assigned a value, or never assigned. *)
Inductive attribute (X : Type) : Type :=
| Assigned (v : X)
| Unassigned.

Arguments Assigned {X} v.
Arguments Unassigned {X}.

(** [self.<name>]: looking up an attribute that was never assigned raises
    AttributeError. *)
Definition getattr {X : Type} (name : string) (a : attribute X) : result X :=
  match a with
  | Assigned v => Ok v
  | Unassigned => Raise (AttributeError name)
  end.

Section Contract.

Context {A : Type}.

(** What a Keras call returns: a tensor, turned into an array by [.numpy()]. *)
Record Tensor : Type := mk_Tensor { numpy : ndarray A }.

(** The Keras model object, as far as the class uses it:
    [self.model(x, training=b)] and [self.model.predict_on_batch(x)]. *)
Record Model : Type := mk_Model {
  call : ndarray A -> bool -> result Tensor;
  predict_on_batch : ndarray A -> result (ndarray A)
}.

(** An instance of a class derived from [Demography], as far as the two
    helpers read it.  The class only annotates [model_name: str], which
    assigns nothing: the attribute exists once a derived class assigns
    it.  Its value is a string or ([None]) Python's None, which the truth
    test accepts as well. *)
Record Demography : Type := mk_Demography {
  model : Model;
  model_name : attribute (option string)
}.

(** Calls made to the model object. *)
Inductive event : Type :=
| EvCall (x : ndarray A) (training : bool)
| EvPredictOnBatch (x : ndarray A).

(** A computation: the calls it made, and its result or exception. *)
Definition M (X : Type) : Type := (list event * result X)%type.

Definition ret {X : Type} (x : X) : M X := ([], Ok x).

Definition raise {X : Type} (e : exn) : M X := ([], Raise e).

Definition lift {X : Type} (r : result X) : M X := ([], r).

Definition bind {X Y : Type} (m : M X) (k : X -> M Y) : M Y :=
  match m with
  | (t, Ok x) => let (t', r) := k x in (t ++ t', r)
  | (t, Raise e) => (t, Raise e)
  end.

Definition trace {X : Type} (m : M X) : list event := fst m.

Definition outcome {X : Type} (m : M X) : result X := snd m.

Definition invoke_call (m : Model) (x : ndarray A) (training : bool) : M Tensor :=
  ([EvCall x training], call m x training).

Definition invoke_predict_on_batch (m : Model) (x : ndarray A) : M (ndarray A) :=
  ([EvPredictOnBatch x], predict_on_batch m x).

(** Truth value of a [str] or None. *)
Definition truthy (s : option string) : bool :=
  match s with
  | None => false
  | Some EmptyString => false
  | Some (String _ _) => true
  end.

Local Notation "x <- m ;; k" := (bind m (fun x => k))
  (at level 61, m at next level, right associativity).

Definition _predict_internal (self : Demography) (img_batch : ndarray A)
  : M (ndarray A) :=
  name <- lift (getattr "model_name" (model_name self)) ;;
  if negb (truthy name)
  then raise (NotImplementedError "virtual method must not be called directly")
  else
    if negb (ndim img_batch =? 4)
    then raise (AssertionError "expected 4-dimensional tensor input")
    else
      d0 <- lift (shape_0 img_batch) ;;
      if d0 =? 1
      then
        img <- lift (squeeze_axis0 img_batch) ;;
        t <- invoke_call (model self) img false ;;
        lift (getitem_0_all (numpy t))
      else invoke_predict_on_batch (model self) img_batch.

(** The argument of [_preprocess_batch_or_single_input]. *)
Inductive input : Type :=
| Single (img : ndarray A)
| ImgList (imgs : list (ndarray A)).

Definition _preprocess_batch_or_single_input (img : input)
  : result (ndarray A) :=
  rbind (match img with
         | ImgList imgs => np_array imgs
         | Single a => Ok a
         end)
    (fun image_batch =>
       let image_batch := squeeze image_batch in
       if length (shape image_batch) =? 3
       then Ok (expand_dims0 image_batch)
       else Ok image_batch).

End Contract.

Arguments Tensor A : clear implicits.
Arguments Model A : clear implicits.
Arguments Demography A : clear implicits.
Arguments event A : clear implicits.
Arguments input A : clear implicits.

End Demography.

(** ** deepface/models/facial_recognition/Buffalo_L.py *)

Module Buffalo_L.

Section Wrapper.

Context {A : Type}.

(** What [get_feat] may hand back, as far as [forward] tells values apart:
    an array, a Python list (of arrays; a number is an array without
    axes), or something else. *)
Inductive embedding : Type :=
| EmbNdarray (a : ndarray A)
| EmbList (l : list (ndarray A))
| EmbOther.

(** The InsightFace model object, as far as [forward] uses it. *)
Record RecognitionModel : Type := mk_RecognitionModel {
  get_feat : ndarray A -> result embedding
}.

Record Buffalo_L : Type := mk_Buffalo_L {
  model : RecognitionModel;
  input_shape : nat * nat;
  output_shape : nat
}.

Definition preprocess (img : ndarray A) : result (ndarray A) :=
  rbind
    (if length (shape img) =? 4
     then
       rbind (shape_0 img) (fun d0 =>
         if d0 =? 1 then getitem img 0
         else Raise (ValueError
                "Buffalo_L model expects a single image, not a batch."))
     else
       if negb (length (shape img) =? 3)
          || negb (shape_eqb (shape img) [112; 112; 3])
       then Raise (ValueError "Input image must have shape (112, 112, 3).")
       else Ok img)
    (fun img => reverse_axis2 img).

(** [forward] returns the calls it made to [get_feat] and the embedding as
    a flat list. *)
Definition forward (self : Buffalo_L) (img : ndarray A)
  : list (ndarray A) * result (list A) :=
  match preprocess img with
  | Raise e => ([], Raise e)
  | Ok img =>
      ([img],
       rbind (get_feat (model self) img) (fun embedding =>
         rbind
           (match embedding with
            | EmbNdarray a =>
                if 1 <? ndim a then Ok (flatten a)
                else Raise (ValueError "Unexpected embedding type: ndarray")
            | EmbList l => rbind (np_array l) (fun a => Ok (flatten a))
            | EmbOther => Raise (ValueError "Unexpected embedding type")
            end)
           (fun embedding => Ok (data embedding))))
  end.

End Wrapper.

Arguments embedding A : clear implicits.
Arguments RecognitionModel A : clear implicits.
Arguments Buffalo_L A : clear implicits.

End Buffalo_L.

(** ** Concrete arrays and models, used to run the definitions *)

Module Examples.

(** An array of the given shape holding 0, 1, 2, ... *)
Definition arange (s : list nat) : ndarray nat :=
  mk_ndarray s (seq 0 (size_of s)).

(** A stand-in network: one output row of two numbers per call, or one
    such row per batch element. *)
Definition toy_model : Demography.Model nat :=
  Demography.mk_Model
    (fun x training =>
       Ok (Demography.mk_Tensor
             (mk_ndarray [1; 2] [length (data x); if training then 1 else 0])))
    (fun x =>
       Ok (mk_ndarray [hd 0 (shape x); 2] (seq 0 (hd 0 (shape x) * 2)))).

Definition configured : Demography.Demography nat :=
  Demography.mk_Demography toy_model
    (Demography.Assigned (Some "Age"%string)).

Definition unconfigured : Demography.Demography nat :=
  Demography.mk_Demography toy_model
    (Demography.Assigned (Some ""%string)).

Definition unnamed : Demography.Demography nat :=
  Demography.mk_Demography toy_model (Demography.Assigned None).

(** An instance of a derived class that never assigned [model_name]. *)
Definition unassigned : Demography.Demography nat :=
  Demography.mk_Demography toy_model Demography.Unassigned.

Definition toy_recognition : Buffalo_L.Buffalo_L nat :=
  Buffalo_L.mk_Buffalo_L
    (Buffalo_L.mk_RecognitionModel
       (fun x => Ok (Buffalo_L.EmbNdarray (mk_ndarray [1; 2] [length (data x); 7]))))
    (112, 112) 512.

End Examples.

Import Demography.

(** ** Vocabulary of the statements *)

(** The instance has a model name: [model_name] is assigned, and its value
    is a non-empty string. *)
Definition has_model_name {A : Type} (self : Demography A) : bool :=
  match model_name self with
  | Assigned name => truthy name
  | Unassigned => false
  end.

(** No axis of length one: [squeeze] leaves such a shape alone. *)
Definition no_unit_axis (s : list nat) : Prop := Forall (fun d => d <> 1) s.

(** The legacy single-sample path on one image: the model is called on the
    image in inference mode, and row 0 of what it returns is taken. *)
Definition legacy_single_sample {A : Type}
  (m : Model A) (img : ndarray A) : result (ndarray A) :=
  rbind (call m img false)
        (fun t => getitem_0_all (numpy t)).

(** The normaliser applied to the array it returned. *)
Definition renormalize {A : Type} (r : result (ndarray A))
  : result (ndarray A) :=
  rbind r (fun b => _preprocess_batch_or_single_input (Single b)).

(** The three exceptions the claims are about, as the source spells them. *)
Definition not_implemented : exn :=
  NotImplementedError "virtual method must not be called directly".

Definition not_4d : exn :=
  AssertionError "expected 4-dimensional tensor input".

Definition not_a_batch : exn :=
  ValueError "Buffalo_L model expects a single image, not a batch.".

Definition not_112 : exn :=
  ValueError "Input image must have shape (112, 112, 3).".

(** The two helpers in sequence, as a concrete model's [predict] uses
    them: the input is normalised, and the result is dispatched. *)
Definition predict_pipeline {A : Type} (self : Demography A) (i : input A)
  : M (ndarray A) :=
  bind (lift (_preprocess_batch_or_single_input i)) (_predict_internal self).

(** How many axes of an array have a length other than one. *)
Definition non_unit_axes {A : Type} (a : ndarray A) : nat :=
  length (filter (fun d => negb (d =? 1)) (shape a)).

(** [a[i, j]] of a 3-D image, as the list of its channel values. *)
Definition pixel {A : Type} (a : ndarray A) (i j : nat) : list A :=
  match shape a with
  | [_; w; c] => firstn c (skipn ((i * w + j) * c) (data a))
  | _ => []
  end.

(** ** The shape normaliser *)

Section NormalizerFacts.

Context {A : Type}.

Implicit Types (a : ndarray A) (s : list nat).

Lemma squeeze_shape_id s :
  no_unit_axis s -> filter (fun d => negb (d =? 1)) s = s.
Proof.
  induction 1 as [| d s Hd _ IH]; simpl; [reflexivity |].
  apply Nat.eqb_neq in Hd. rewrite Hd. simpl. now rewrite IH.
Qed.

Lemma squeeze_no_unit_axis s :
  no_unit_axis (filter (fun d => negb (d =? 1)) s).
Proof.
  induction s as [| d s IH]; simpl; [constructor |].
  destruct (d =? 1) eqn:E; simpl; [exact IH |].
  constructor; [now apply Nat.eqb_neq | exact IH].
Qed.

Lemma squeeze_fixed a : no_unit_axis (shape a) -> squeeze a = a.
Proof.
  destruct a as [s d]. unfold squeeze. cbn [shape data]. intros H.
  now rewrite (squeeze_shape_id H).
Qed.

(** What the normaliser does to a bare array, in terms of its shape. *)
Lemma normalize_single a :
  _preprocess_batch_or_single_input (Single a) =
  Ok (if length (shape (squeeze a)) =? 3
      then expand_dims0 (squeeze a) else squeeze a).
Proof.
  unfold _preprocess_batch_or_single_input, rbind.
  now destruct (length (shape (squeeze a)) =? 3).
Qed.

Lemma shape_eqb_refl s : shape_eqb s s = true.
Proof. unfold shape_eqb. now destruct (list_eq_dec Nat.eq_dec s s). Qed.

Lemma np_array_same_shape (imgs : list (ndarray A)) s :
  imgs <> [] ->
  Forall (fun a => shape a = s) imgs ->
  np_array imgs = Ok (mk_ndarray (length imgs :: s) (concat (map (@data A) imgs))).
Proof.
  intros Hne Hall. destruct imgs as [| x xs]; [congruence |].
  inversion Hall as [| ? ? Hx Hxs]; subst.
  unfold np_array.
  replace (forallb (fun y => shape_eqb (shape y) (shape x)) xs) with true;
    [reflexivity |].
  symmetry. apply forallb_forall. intros y Hy.
  rewrite Forall_forall in Hxs. rewrite (Hxs y Hy). apply shape_eqb_refl.
Qed.

(** The [k]-th slice of a concatenation of equally long lists is the
    [k]-th list. *)
Lemma slice_concat (n : nat) (l : list (list A)) :
  Forall (fun x => length x = n) l ->
  forall k x, nth_error l k = Some x ->
              firstn n (skipn (k * n) (concat l)) = x.
Proof.
  induction 1 as [| y l Hy _ IH]; intros k x Hk.
  - destruct k; discriminate.
  - destruct k as [| k]; simpl in *.
    + injection Hk as <-. rewrite firstn_app, Hy, Nat.sub_diag. simpl.
      rewrite <- Hy, firstn_all. apply app_nil_r.
    + rewrite skipn_app, Hy.
      replace (n + k * n - n) with (k * n) by lia.
      rewrite (skipn_all2 y) by lia. simpl. now apply IH.
Qed.

End NormalizerFacts.

Section NormalizerClaims.

Context {A : Type}.

Implicit Types (a : ndarray A).

Lemma squeeze_squeeze a : squeeze (squeeze a) = squeeze a.
Proof. apply squeeze_fixed. apply squeeze_no_unit_axis. Qed.

Lemma squeeze_expand_squeeze a :
  squeeze (expand_dims0 (squeeze a)) = squeeze a.
Proof.
  unfold expand_dims0. unfold squeeze at 1. cbn [shape data filter Nat.eqb negb].
  fold (squeeze (squeeze a)). apply squeeze_squeeze.
Qed.

(** Normalising twice is normalising once, whatever the array. *)
Lemma normalize_idempotent a :
  renormalize (_preprocess_batch_or_single_input (Single a))
  = _preprocess_batch_or_single_input (Single a).
Proof.
  unfold renormalize. rewrite normalize_single. cbn [rbind].
  destruct (length (shape (squeeze a)) =? 3) eqn:E;
    rewrite normalize_single.
  - rewrite squeeze_expand_squeeze, E. reflexivity.
  - rewrite squeeze_squeeze, E. reflexivity.
Qed.

(** C3, amended: a single 3-D image of shape (H,W,C) none of whose axes
    has length one is normalised to the batch of one of shape (1,H,W,C),
    holding the same elements. *)
Theorem normalize_single_image a H W C :
  shape a = [H; W; C] -> H <> 1 -> W <> 1 -> C <> 1 ->
  _preprocess_batch_or_single_input (Single a)
  = Ok (mk_ndarray [1; H; W; C] (data a)).
Proof.
  intros Hs HH HW HC. rewrite normalize_single.
  assert (Hq : squeeze a = a).
  { apply squeeze_fixed. rewrite Hs. repeat constructor; assumption. }
  rewrite Hq, Hs. cbn [length Nat.eqb]. unfold expand_dims0. now rewrite Hs.
Qed.

(** C4, amended: a single grayscale image of shape (H,W,1), H>1 and W>1,
    is normalised to the 2-D array of shape (H,W) holding the same
    elements, and to neither (1,H,W) nor (1,H,W,1): the channel axis is
    squeezed away, and what is left has two axes, so no batch axis is put
    back. *)
Theorem normalize_grayscale_drops_channel a H W :
  shape a = [H; W; 1] -> 1 < H -> 1 < W ->
  exists r, _preprocess_batch_or_single_input (Single a) = Ok r
            /\ shape r = [H; W]
            /\ shape r <> [1; H; W]
            /\ shape r <> [1; H; W; 1]
            /\ data r = data a.
Proof.
  intros Hs HH HW. exists (mk_ndarray [H; W] (data a)).
  rewrite normalize_single. unfold squeeze. rewrite Hs.
  cbn [filter Nat.eqb negb].
  replace (H =? 1) with false by (symmetry; apply Nat.eqb_neq; lia).
  replace (W =? 1) with false by (symmetry; apply Nat.eqb_neq; lia).
  cbn [negb length Nat.eqb shape data].
  repeat split; discriminate.
Qed.

(** C5, amended: a list of K >= 1 images, all of the same shape (H,W,C)
    with none of H, W, C equal to one, is stacked in the order of the list
    into an array of shape (K,H,W,C) whose k-th element along the batch
    axis is the k-th image of the list. *)
Theorem normalize_image_list (imgs : list (ndarray A)) H W C :
  imgs <> [] ->
  Forall (fun a => shape a = [H; W; C] /\ wf a) imgs ->
  H <> 1 -> W <> 1 -> C <> 1 ->
  exists r, _preprocess_batch_or_single_input (ImgList imgs) = Ok r
            /\ shape r = [length imgs; H; W; C]
            /\ data r = concat (map (@data A) imgs)
            /\ forall k img, nth_error imgs k = Some img -> getitem r k = Ok img.
Proof.
  intros Hne Hall HH HW HC.
  exists (mk_ndarray [length imgs; H; W; C] (concat (map (@data A) imgs))).
  assert (Hshapes : Forall (fun a => shape a = [H; W; C]) imgs).
  { eapply Forall_impl; [| exact Hall]. now intros a [Hs _]. }
  split; [| split; [reflexivity | split; [reflexivity |]]].
  - unfold _preprocess_batch_or_single_input.
    rewrite (np_array_same_shape Hne Hshapes). cbn [rbind].
    unfold squeeze. cbn [shape data filter].
    apply Nat.eqb_neq in HH, HW, HC. rewrite HH, HW, HC. cbn [negb].
    destruct (length imgs =? 1) eqn:EK; cbn.
    + apply Nat.eqb_eq in EK. rewrite EK. reflexivity.
    + reflexivity.
  - intros k img Hk. unfold getitem. cbn [shape data].
    assert (Hlt : k < length imgs) by (apply nth_error_Some; congruence).
    apply Nat.ltb_lt in Hlt. rewrite Hlt.
    rewrite Forall_forall in Hall.
    destruct (Hall img (nth_error_In _ _ Hk)) as [Hs Hwf].
    assert (HF : Forall (fun x => length x = size_of [H; W; C])
                        (map (@data A) imgs)).
    { apply Forall_forall. intros x Hx. apply in_map_iff in Hx.
      destruct Hx as [b [<- Hb]]. destruct (Hall b Hb) as [Hbs Hbw].
      unfold wf in Hbw. now rewrite Hbw, Hbs. }
    rewrite (slice_concat HF k (map_nth_error (@data A) k imgs Hk)).
    destruct img as [s d]. cbn in Hs |- *. now subst s.
Qed.

(** C6, amended: an already batched array of shape (N,H,W,C) with N>1 is
    returned unchanged when none of H, W, C equals one; and normalising
    the result of normalising such an array (whatever H, W, C) gives that
    result again. *)
Theorem normalize_batch_unchanged_idempotent a N H W C :
  shape a = [N; H; W; C] -> 1 < N ->
  (H <> 1 -> W <> 1 -> C <> 1 ->
   _preprocess_batch_or_single_input (Single a) = Ok a)
  /\ renormalize (_preprocess_batch_or_single_input (Single a))
     = _preprocess_batch_or_single_input (Single a).
Proof.
  intros Hs HN. split; [| apply normalize_idempotent].
  intros HH HW HC. rewrite normalize_single.
  assert (Hq : squeeze a = a).
  { apply squeeze_fixed. rewrite Hs. repeat constructor; try assumption. lia. }
  rewrite Hq, Hs. reflexivity.
Qed.

End NormalizerClaims.

(** ** The batch dispatcher *)

Section DispatcherClaims.

Context {A : Type}.

Implicit Types (self : Demography A) (b : ndarray A).

Lemma bind_lift_ok (X Y : Type) (x : X) (k : X -> @M A Y) :
  bind (lift (Ok x)) k = k x.
Proof. unfold bind, lift. now destruct (k x). Qed.

(** With a model name, the dispatcher gets past its first guard. *)
Lemma predict_internal_past_name self b :
  has_model_name self = true ->
  _predict_internal self b =
  if negb (ndim b =? 4)
  then raise (AssertionError "expected 4-dimensional tensor input")
  else
    bind (lift (shape_0 b)) (fun d0 =>
      if d0 =? 1
      then
        bind (lift (squeeze_axis0 b)) (fun img =>
          bind (invoke_call (model self) img false) (fun t =>
            lift (getitem_0_all (numpy t))))
      else invoke_predict_on_batch (model self) b).
Proof.
  unfold has_model_name, _predict_internal.
  destruct (model_name self) as [name |]; [| discriminate].
  intros Hn. cbn [getattr]. rewrite bind_lift_ok, Hn. reflexivity.
Qed.

(** Past the two guards, a 4-D batch reaches exactly one inference path. *)
Lemma predict_internal_4d self d0 H W C (els : list A) :
  has_model_name self = true ->
  _predict_internal self (mk_ndarray [d0; H; W; C] els) =
  if d0 =? 1
  then ([EvCall (mk_ndarray [H; W; C] els) false],
        legacy_single_sample (model self) (mk_ndarray [H; W; C] els))
  else ([EvPredictOnBatch (mk_ndarray [d0; H; W; C] els)],
        predict_on_batch (model self)
          (mk_ndarray [d0; H; W; C] els)).
Proof.
  intros Hn. rewrite (predict_internal_past_name self _ Hn).
  cbn [negb ndim shape length Nat.eqb].
  unfold bind, lift, shape_0. cbn [shape].
  destruct (d0 =? 1) eqn:E.
  - unfold squeeze_axis0. cbn [shape data]. rewrite E.
    unfold invoke_call, legacy_single_sample.
    destruct (call (model self)
                (mk_ndarray [H; W; C] els) false) as [t | e];
      reflexivity.
  - unfold invoke_predict_on_batch.
    destruct (predict_on_batch (model self)
                (mk_ndarray [d0; H; W; C] els)); reflexivity.
Qed.

(** C1: on a batch of shape (1,H,W,C), with a non-empty model name, the
    dispatcher drops the batch axis (which leaves the one image of the
    batch), calls the model once on that image with training=False, and
    returns row 0 of the output, which is the legacy single-sample result
    for that image; when the model returns a 2-D array of d columns, this
    is a 1-D vector of d elements. *)
Theorem predict_internal_single_image self b H W C :
  has_model_name self = true ->
  shape b = [1; H; W; C] ->
  let img := mk_ndarray [H; W; C] (data b) in
  squeeze_axis0 b = Ok img
  /\ (wf b -> getitem b 0 = Ok img)
  /\ _predict_internal self b
     = ([EvCall img false],
        legacy_single_sample (model self) img)
  /\ (forall t r d,
        call (model self) img false = Ok t ->
        shape (numpy t) = [S r; d] ->
        exists v, outcome (_predict_internal self b) = Ok v
                  /\ shape v = [d]
                  /\ data v = firstn d (data (numpy t))).
Proof.
  intros Hn Hs img. destruct b as [s els]. cbn in Hs. subst s.
  cbn [data] in img.
  assert (Hrun := predict_internal_4d self 1 H W C els Hn).
  cbn [Nat.eqb] in Hrun. fold img in Hrun.
  split; [reflexivity | split; [| split; [exact Hrun |]]].
  - unfold wf, getitem, size_of.
    cbn [shape data Nat.ltb Nat.leb fold_right]. intros Hwf.
    rewrite Nat.mul_1_l in Hwf. cbn [Nat.mul skipn].
    rewrite <- Hwf, firstn_all. reflexivity.
  - intros t r d Ht Hsh. rewrite Hrun. unfold outcome. cbn [snd].
    unfold legacy_single_sample. rewrite Ht. cbn [rbind].
    unfold getitem_0_all, ndim, getitem. rewrite Hsh.
    cbn [length Nat.ltb Nat.leb Nat.mul skipn size_of fold_right].
    eexists. split; [reflexivity |]. cbn [shape data].
    now rewrite Nat.mul_1_r.
Qed.

(** C2: on a batch of shape (N,H,W,C) with N>1, with a non-empty model
    name, the dispatcher calls predict_on_batch once, on the whole batch,
    and returns what it returns, untouched: when that is a 2-D array of N
    rows, so is the result. *)
Theorem predict_internal_batch self b N H W C :
  has_model_name self = true ->
  shape b = [N; H; W; C] -> 1 < N ->
  _predict_internal self b
  = ([EvPredictOnBatch b],
     predict_on_batch (model self) b)
  /\ (forall r d,
        predict_on_batch (model self) b = Ok r ->
        shape r = [N; d] ->
        outcome (_predict_internal self b) = Ok r
        /\ ndim r = 2 /\ shape_0 r = Ok N).
Proof.
  intros Hn Hs HN. destruct b as [s els]. cbn in Hs. subst s.
  assert (Hrun := predict_internal_4d self N H W C els Hn).
  replace (N =? 1) with false in Hrun by (symmetry; apply Nat.eqb_neq; lia).
  split; [exact Hrun |].
  intros r d Hr Hsh. rewrite Hrun. unfold outcome, ndim, shape_0.
  cbn [snd]. rewrite Hsh. auto.
Qed.

(** X24: when [model_name] is assigned the empty string, or None, the
    dispatcher raises NotImplementedError whatever the array is (4-D or
    not), and the model has not been called. *)
Theorem predict_internal_unconfigured self b :
  model_name self = Assigned None
  \/ model_name self = Assigned (Some EmptyString) ->
  _predict_internal self b = ([], Raise not_implemented).
Proof.
  intros Hn. unfold _predict_internal.
  destruct Hn as [-> | ->]; cbn [getattr]; now rewrite bind_lift_ok.
Qed.

(** C7: an instance whose [model_name] was never assigned (the class
    itself only annotates it) does not get the NotImplementedError the
    guard is there to raise: looking the attribute up raises
    AttributeError, whatever the model and the array, and the model has
    not been called. *)
Theorem predict_internal_unassigned_name (m : Model A) b :
  exists msg,
    _predict_internal (mk_Demography m Unassigned) b
    = ([], Raise (AttributeError msg))
    /\ _predict_internal (mk_Demography m Unassigned) b
       <> ([], Raise not_implemented).
Proof.
  eexists. split; [reflexivity | discriminate].
Qed.

(** C8: with a non-empty model name, an array that does not have exactly
    four axes makes the dispatcher raise the assertion error, and the
    model has not been called; an array with four axes gets past the
    assertion: exactly one inference call is made.  So the run stops at the
    assertion exactly when the array does not have four axes. *)
Theorem predict_internal_shape_assertion self b :
  has_model_name self = true ->
  (ndim b <> 4 -> _predict_internal self b = ([], Raise not_4d))
  /\ (ndim b = 4 ->
      exists ev, trace (_predict_internal self b) = [ev])
  /\ (_predict_internal self b = ([], Raise not_4d) <-> ndim b <> 4).
Proof.
  intros Hn.
  assert (Hbad : ndim b <> 4 -> _predict_internal self b = ([], Raise not_4d)).
  { intros Hd. rewrite (predict_internal_past_name self b Hn).
    apply Nat.eqb_neq in Hd. now rewrite Hd. }
  assert (Hgood : ndim b = 4 ->
            exists ev, trace (_predict_internal self b) = [ev]).
  { intros Hd. destruct b as [s els]. unfold ndim in Hd. cbn [shape] in Hd.
    destruct s as [| d0 [| H [| W [| C [| ? ?]]]]]; try discriminate.
    rewrite (predict_internal_4d self d0 H W C els Hn).
    destruct (d0 =? 1); eexists; reflexivity. }
  split; [exact Hbad | split; [exact Hgood |]].
  split; [| exact Hbad].
  intros Hr Hd. destruct (Hgood Hd) as [ev Hev].
  rewrite Hr in Hev. discriminate.
Qed.

(** C10, amended: a bare 2-D image of shape (H,W), H>1 and W>1, comes out
    of the normaliser unchanged, so with two axes and not four; handed to
    the dispatcher of a model with a non-empty model name, it raises the
    assertion error, and the model is not called. *)
Theorem normalize_2d_then_dispatch_asserts self b H W :
  has_model_name self = true ->
  shape b = [H; W] -> 1 < H -> 1 < W ->
  _preprocess_batch_or_single_input (Single b) = Ok b
  /\ ndim b = 2
  /\ _predict_internal self b = ([], Raise not_4d).
Proof.
  intros Hn Hs HH HW.
  assert (Hd : ndim b = 2) by (unfold ndim; now rewrite Hs).
  split; [| split; [exact Hd |]].
  - rewrite normalize_single.
    assert (Hq : squeeze b = b).
    { apply squeeze_fixed. rewrite Hs. repeat constructor; lia. }
    rewrite Hq, Hs. reflexivity.
  - rewrite (predict_internal_past_name self b Hn), Hd. reflexivity.
Qed.

End DispatcherClaims.

(** ** Buffalo_L *)

Section BuffaloClaims.

Context {A : Type}.

(** C9: on a 4-D array whose first axis is longer than one,
    [Buffalo_L.preprocess] raises ValueError; the error comes from the
    shape check, ahead of the channel reversal, and [forward], which
    starts with [preprocess], lets it through without calling [get_feat]. *)
Theorem buffalo_rejects_batches (img : ndarray A) N H W C :
  shape img = [N; H; W; C] -> 1 < N ->
  Buffalo_L.preprocess img = Raise not_a_batch
  /\ forall self : Buffalo_L.Buffalo_L A,
       Buffalo_L.forward self img = ([], Raise not_a_batch).
Proof.
  intros Hs HN.
  assert (Hp : Buffalo_L.preprocess img = Raise not_a_batch).
  { unfold Buffalo_L.preprocess, shape_0. rewrite Hs.
    cbn [length Nat.eqb rbind].
    replace (N =? 1) with false by (symmetry; apply Nat.eqb_neq; lia).
    reflexivity. }
  split; [exact Hp |].
  intros self. unfold Buffalo_L.forward. now rewrite Hp.
Qed.

End BuffaloClaims.

(** ** The definitions run on concrete inputs *)

Import Examples.

Example normalize_color_image :
  _preprocess_batch_or_single_input (Single (arange [2; 2; 3]))
  = Ok (arange [1; 2; 2; 3]).
Proof. reflexivity. Qed.

Example normalize_two_images :
  _preprocess_batch_or_single_input
      (ImgList [arange [2; 2; 3]; arange [2; 2; 3]])
  = Ok (mk_ndarray [2; 2; 2; 3] (seq 0 12 ++ seq 0 12)).
Proof. reflexivity. Qed.

Example normalize_mismatched_images :
  _preprocess_batch_or_single_input
      (ImgList [arange [2; 2; 3]; arange [2; 3; 3]])
  = Raise (ValueError
      "setting an array element with a sequence. The requested array has an inhomogeneous shape").
Proof. reflexivity. Qed.

Example dispatch_one_image :
  _predict_internal configured (arange [1; 2; 2; 3])
  = ([EvCall (arange [2; 2; 3]) false], Ok (mk_ndarray [2] [12; 0])).
Proof. reflexivity. Qed.

Example dispatch_three_images :
  _predict_internal configured (arange [3; 2; 2; 3])
  = ([EvPredictOnBatch (arange [3; 2; 2; 3])],
     Ok (mk_ndarray [3; 2] [0; 1; 2; 3; 4; 5])).
Proof. reflexivity. Qed.

Example dispatch_unassigned_name :
  _predict_internal unassigned (arange [1; 2; 2; 3])
  = ([], Raise (AttributeError "model_name")).
Proof. reflexivity. Qed.

Example buffalo_reverses_channels :
  Buffalo_L.preprocess (arange [1; 1; 2; 3])
  = Ok (mk_ndarray [1; 2; 3] [2; 1; 0; 5; 4; 3]).
Proof. reflexivity. Qed.

Example buffalo_forward_one_image :
  Buffalo_L.forward toy_recognition (arange [1; 1; 2; 3])
  = ([mk_ndarray [1; 2; 3] [2; 1; 0; 5; 4; 3]], Ok [6; 7]).
Proof. reflexivity. Qed.

(** ** Where the spec's statements fail *)

(** C3 as the spec states it fails: an image of shape (3,2,1) is a single
    3-D image, and is normalised to shape (3,2), not (1,3,2,1). *)
Lemma normalize_single_image_counterexample :
  _preprocess_batch_or_single_input (Single (arange [3; 2; 1]))
  = Ok (mk_ndarray [3; 2] [0; 1; 2; 3; 4; 5])
  /\ ~ (forall (a : ndarray nat) H W C,
          shape a = [H; W; C] ->
          exists r, _preprocess_batch_or_single_input (Single a) = Ok r
                    /\ shape r = [1; H; W; C]).
Proof.
  split; [reflexivity |].
  intros Hall.
  destruct (Hall (arange [3; 2; 1]) 3 2 1 eq_refl) as [r [Hr Hs]].
  vm_compute in Hr. injection Hr as <-. discriminate.
Qed.

(** C4 as the spec states it fails: a grayscale image of shape (2,3,1) is
    normalised to shape (2,3), not (1,2,3). *)
Lemma normalize_grayscale_counterexample :
  _preprocess_batch_or_single_input (Single (arange [2; 3; 1]))
  = Ok (mk_ndarray [2; 3] [0; 1; 2; 3; 4; 5])
  /\ ~ (forall (a : ndarray nat) H W,
          shape a = [H; W; 1] -> 1 < H -> 1 < W ->
          exists r, _preprocess_batch_or_single_input (Single a) = Ok r
                    /\ shape r = [1; H; W]).
Proof.
  split; [reflexivity |].
  intros Hall.
  destruct (Hall (arange [2; 3; 1]) 2 3 eq_refl) as [r [Hr Hs]]; [lia | lia |].
  vm_compute in Hr. injection Hr as <-. discriminate.
Qed.

(** C5 as the spec states it fails: two images of shape (2,2,1) are
    stacked to (2,2,2,1), squeezed to (2,2,2), which has three axes, and
    come out as one "image" of shape (1,2,2,2), not as (2,2,2,1). *)
Lemma normalize_image_list_counterexample :
  _preprocess_batch_or_single_input
      (ImgList [arange [2; 2; 1]; arange [2; 2; 1]])
  = Ok (mk_ndarray [1; 2; 2; 2] [0; 1; 2; 3; 0; 1; 2; 3])
  /\ ~ (forall (imgs : list (ndarray nat)) H W C,
          imgs <> [] ->
          Forall (fun a => shape a = [H; W; C] /\ wf a) imgs ->
          exists r, _preprocess_batch_or_single_input (ImgList imgs) = Ok r
                    /\ shape r = [length imgs; H; W; C]).
Proof.
  split; [reflexivity |].
  intros Hall.
  destruct (Hall [arange [2; 2; 1]; arange [2; 2; 1]] 2 2 1)
    as [r [Hr Hs]].
  - discriminate.
  - repeat constructor.
  - vm_compute in Hr. injection Hr as <-. discriminate.
Qed.

(** C6 as the spec states it fails: a batch of shape (2,2,2,1) is squeezed
    to (2,2,2) and comes out with shape (1,2,2,2), so not unchanged. *)
Lemma normalize_batch_counterexample :
  _preprocess_batch_or_single_input (Single (arange [2; 2; 2; 1]))
  = Ok (mk_ndarray [1; 2; 2; 2] [0; 1; 2; 3; 4; 5; 6; 7])
  /\ ~ (forall (a : ndarray nat) N H W C,
          shape a = [N; H; W; C] -> 1 < N ->
          _preprocess_batch_or_single_input (Single a)
          = Ok a).
Proof.
  split; [reflexivity |].
  intros Hall.
  assert (Hr := Hall (arange [2; 2; 2; 1]) 2 2 2 1 eq_refl).
  assert (H12 : 1 < 2) by lia. specialize (Hr H12).
  vm_compute in Hr. discriminate.
Qed.

(** C10 as stated fails: when the model name is empty, the normalised 2-D
    image makes the dispatcher raise NotImplementedError, not the
    assertion error. *)
Lemma normalize_2d_then_dispatch_counterexample :
  _predict_internal unconfigured (arange [2; 2])
  = ([], Raise not_implemented)
  /\ ~ (forall (self : Demography nat) (a : ndarray nat) H W,
          shape a = [H; W] -> 1 < H -> 1 < W ->
          forall r, _preprocess_batch_or_single_input (Single a) = Ok r ->
                    outcome (_predict_internal self r)
                    = Raise not_4d).
Proof.
  split; [reflexivity |].
  intros Hall.
  assert (Hr := Hall unconfigured (arange [2; 2]) 2 2 eq_refl).
  assert (H12 : 1 < 2) by lia.
  specialize (Hr H12 H12 (arange [2; 2]) eq_refl).
  vm_compute in Hr. discriminate.
Qed.

(** ** The theorems at concrete inputs *)

Lemma predict_internal_single_image_witness :
  has_model_name configured = true
  /\ shape (arange [1; 2; 2; 3]) = [1; 2; 2; 3]
  /\ _predict_internal configured (arange [1; 2; 2; 3])
     = ([EvCall (arange [2; 2; 3]) false],
        legacy_single_sample toy_model (arange [2; 2; 3]))
  /\ exists v,
       outcome
         (_predict_internal configured (arange [1; 2; 2; 3])) = Ok v
       /\ shape v = [2] /\ data v = [12; 0].
Proof.
  destruct (@predict_internal_single_image nat configured
              (arange [1; 2; 2; 3]) 2 2 3 eq_refl eq_refl)
    as [_ [_ [Hrun Hvec]]].
  split; [reflexivity | split; [reflexivity | split; [exact Hrun |]]].
  exact (Hvec (mk_Tensor (mk_ndarray [1; 2] [12; 0])) 0 2
              eq_refl eq_refl).
Defined.

Lemma predict_internal_batch_witness :
  has_model_name configured = true
  /\ shape (arange [3; 2; 2; 3]) = [3; 2; 2; 3]
  /\ 1 < 3
  /\ _predict_internal configured (arange [3; 2; 2; 3])
     = ([EvPredictOnBatch (arange [3; 2; 2; 3])],
        predict_on_batch toy_model (arange [3; 2; 2; 3])).
Proof.
  assert (H13 : 1 < 3) by lia.
  split; [reflexivity | split; [reflexivity | split; [exact H13 |]]].
  exact (proj1 (@predict_internal_batch nat configured
                  (arange [3; 2; 2; 3]) 3 2 2 3 eq_refl eq_refl H13)).
Defined.

Lemma normalize_single_image_witness :
  shape (arange [2; 2; 3]) = [2; 2; 3]
  /\ _preprocess_batch_or_single_input (Single (arange [2; 2; 3]))
     = Ok (mk_ndarray [1; 2; 2; 3] (data (arange [2; 2; 3]))).
Proof.
  split; [reflexivity |].
  apply (@normalize_single_image nat (arange [2; 2; 3]) 2 2 3);
    [reflexivity | discriminate | discriminate | discriminate].
Defined.

Lemma normalize_grayscale_drops_channel_witness :
  shape (arange [2; 3; 1]) = [2; 3; 1]
  /\ exists r, _preprocess_batch_or_single_input
      (Single (arange [2; 3; 1])) = Ok r
               /\ shape r = [2; 3]
               /\ shape r <> [1; 2; 3]
               /\ shape r <> [1; 2; 3; 1]
               /\ data r = data (arange [2; 3; 1]).
Proof.
  split; [reflexivity |].
  apply (@normalize_grayscale_drops_channel nat (arange [2; 3; 1]) 2 3);
    [reflexivity | lia | lia].
Defined.

Lemma normalize_image_list_witness :
  exists r, _preprocess_batch_or_single_input
      (ImgList [arange [2; 2; 3]; arange [2; 2; 3]]) = Ok r
            /\ shape r = [2; 2; 2; 3]
            /\ data r = seq 0 12 ++ seq 0 12
            /\ forall k img,
                 nth_error [arange [2; 2; 3]; arange [2; 2; 3]] k = Some img ->
                 getitem r k = Ok img.
Proof.
  destruct (@normalize_image_list nat [arange [2; 2; 3]; arange [2; 2; 3]] 2 2 3)
    as [r [Hr [Hs [Hd Hk]]]].
  - discriminate.
  - repeat constructor.
  - discriminate.
  - discriminate.
  - discriminate.
  - exists r. split; [exact Hr | split; [exact Hs | split; [exact Hd | exact Hk]]].
Defined.

Lemma normalize_batch_unchanged_idempotent_witness :
  shape (arange [2; 2; 2; 3]) = [2; 2; 2; 3]
  /\ _preprocess_batch_or_single_input (Single (arange [2; 2; 2; 3]))
     = Ok (arange [2; 2; 2; 3])
  /\ renormalize
       (_preprocess_batch_or_single_input (Single (arange [2; 2; 2; 3])))
     = _preprocess_batch_or_single_input (Single (arange [2; 2; 2; 3])).
Proof.
  assert (H12 : 1 < 2) by lia.
  destruct (@normalize_batch_unchanged_idempotent nat (arange [2; 2; 2; 3])
              2 2 2 3 eq_refl H12) as [Hsame Hidem].
  split; [reflexivity | split; [| exact Hidem]].
  apply Hsame; discriminate.
Defined.

Lemma predict_internal_unconfigured_witness :
  _predict_internal unconfigured (arange [2; 2])
  = ([], Raise not_implemented)
  /\ _predict_internal unnamed (arange [1; 2; 2; 3])
     = ([], Raise not_implemented).
Proof.
  split.
  - apply (@predict_internal_unconfigured nat unconfigured (arange [2; 2])).
    right. reflexivity.
  - apply (@predict_internal_unconfigured nat unnamed (arange [1; 2; 2; 3])).
    left. reflexivity.
Defined.

Lemma predict_internal_shape_assertion_witness :
  has_model_name configured = true
  /\ ndim (arange [2; 2; 3]) <> 4
  /\ _predict_internal configured (arange [2; 2; 3])
     = ([], Raise not_4d).
Proof.
  assert (Hd : ndim (arange [2; 2; 3]) <> 4) by discriminate.
  split; [reflexivity | split; [exact Hd |]].
  exact (proj1 (@predict_internal_shape_assertion nat configured
                  (arange [2; 2; 3]) eq_refl) Hd).
Defined.

Lemma buffalo_rejects_batches_witness :
  shape (arange [2; 1; 1; 3]) = [2; 1; 1; 3]
  /\ 1 < 2
  /\ Buffalo_L.preprocess (arange [2; 1; 1; 3]) = Raise not_a_batch
  /\ Buffalo_L.forward toy_recognition (arange [2; 1; 1; 3])
     = ([], Raise not_a_batch).
Proof.
  assert (H12 : 1 < 2) by lia.
  destruct (@buffalo_rejects_batches nat (arange [2; 1; 1; 3]) 2 1 1 3
              eq_refl H12) as [Hp Hf].
  split; [reflexivity | split; [exact H12 | split; [exact Hp |]]].
  exact (Hf toy_recognition).
Defined.

Lemma normalize_2d_then_dispatch_asserts_witness :
  has_model_name configured = true
  /\ shape (arange [2; 3]) = [2; 3]
  /\ _preprocess_batch_or_single_input
      (Single (arange [2; 3])) = Ok (arange [2; 3])
  /\ ndim (arange [2; 3]) = 2
  /\ _predict_internal configured (arange [2; 3])
     = ([], Raise not_4d).
Proof.
  split; [reflexivity | split; [reflexivity |]].
  apply (@normalize_2d_then_dispatch_asserts nat configured (arange [2; 3]) 2 3);
    [reflexivity | reflexivity | lia | lia].
Defined.

(** ** More on the shape normaliser *)

Section NormalizerMore.

Context {A : Type}.

Implicit Types (a r : ndarray A) (i : input A) (imgs : list (ndarray A)).

Lemma size_of_squeeze (s : list nat) :
  size_of (filter (fun d => negb (d =? 1)) s) = size_of s.
Proof.
  induction s as [| d s IH]; [reflexivity |].
  cbn [filter]. destruct (d =? 1) eqn:E; cbn [negb size_of fold_right].
  - apply Nat.eqb_eq in E. subst d. fold (size_of s).
    fold (size_of (filter (fun d => negb (d =? 1)) s)). lia.
  - fold (size_of s). fold (size_of (filter (fun d => negb (d =? 1)) s)).
    now rewrite IH.
Qed.

(** A list is normalised like the array it is stacked to. *)
Lemma normalize_list_as_single imgs x :
  np_array imgs = Ok x ->
  _preprocess_batch_or_single_input (ImgList imgs)
  = _preprocess_batch_or_single_input (Single x).
Proof.
  intros Hx. unfold _preprocess_batch_or_single_input. now rewrite Hx.
Qed.

Lemma normalize_list_ok imgs r :
  _preprocess_batch_or_single_input (ImgList imgs) = Ok r ->
  exists x, np_array imgs = Ok x.
Proof.
  unfold _preprocess_batch_or_single_input.
  destruct (np_array imgs) as [x | e]; [now exists x | discriminate].
Qed.

Lemma length_concat_same (n : nat) (l : list (list A)) :
  Forall (fun x => length x = n) l -> length (concat l) = length l * n.
Proof.
  induction 1 as [| x l Hx _ IH]; [reflexivity |].
  cbn [concat length]. rewrite length_app, Hx, IH. lia.
Qed.

Lemma normalize_single_data a r :
  _preprocess_batch_or_single_input (Single a) = Ok r ->
  data r = data a /\ (wf a -> wf r).
Proof.
  rewrite normalize_single.
  assert (Hsz : size_of (shape (squeeze a)) = size_of (shape a))
    by apply size_of_squeeze.
  destruct (length (shape (squeeze a)) =? 3);
    intros Hr; injection Hr as <-;
    (split; [reflexivity |]); unfold wf; intros Hwf.
  - change (data (expand_dims0 (squeeze a))) with (data a).
    change (size_of (shape (expand_dims0 (squeeze a))))
      with (1 * size_of (shape (squeeze a))).
    rewrite Hsz. lia.
  - change (data (squeeze a)) with (data a). now rewrite Hsz.
Qed.

(** X1: whatever the input (an array or a list), what the normaliser
    returns is normalised to itself. *)
Theorem normalize_result_is_fixed i r :
  _preprocess_batch_or_single_input i = Ok r ->
  _preprocess_batch_or_single_input (Single r) = Ok r.
Proof.
  assert (Hsingle : forall a,
            _preprocess_batch_or_single_input (Single a) = Ok r ->
            _preprocess_batch_or_single_input (Single r) = Ok r).
  { intros a Hr. assert (Hi := normalize_idempotent a).
    rewrite Hr in Hi. exact Hi. }
  destruct i as [a | imgs]; intros Hr; [now apply (Hsingle a) |].
  destruct (@normalize_list_ok imgs r Hr) as [x Hx].
  rewrite (@normalize_list_as_single imgs x Hx) in Hr. now apply (Hsingle x).
Qed.

Lemma normalize_single_rank a :
  exists r, _preprocess_batch_or_single_input (Single a) = Ok r
            /\ (ndim r = 4 <-> non_unit_axes a = 3 \/ non_unit_axes a = 4).
Proof.
  rewrite normalize_single. eexists. split; [reflexivity |].
  unfold non_unit_axes, ndim, expand_dims0, squeeze. cbn [shape].
  destruct (length (filter (fun d => negb (d =? 1)) (shape a)) =? 3) eqn:E;
    cbn [shape length].
  - apply Nat.eqb_eq in E. lia.
  - apply Nat.eqb_neq in E. lia.
Qed.

(** X3: a bare array always comes out, with the elements it had, and it
    comes out with four axes exactly when three or four of its axes have a
    length other than one. *)
Theorem normalize_rank a :
  exists r, _preprocess_batch_or_single_input (Single a) = Ok r
            /\ data r = data a
            /\ (ndim r = 4 <-> non_unit_axes a = 3 \/ non_unit_axes a = 4).
Proof.
  destruct (normalize_single_rank a) as [r [Hr Hrank]].
  exists r. split; [exact Hr | split; [| exact Hrank]].
  now apply (@normalize_single_data a r).
Qed.

(** X4: a list of one image is normalised like the image itself, and so is
    the image with a batch axis of length one put in front. *)
Theorem normalize_singleton_list a :
  _preprocess_batch_or_single_input (ImgList [a])
  = _preprocess_batch_or_single_input (Single a)
  /\ _preprocess_batch_or_single_input (Single (expand_dims0 a))
     = _preprocess_batch_or_single_input (Single a).
Proof.
  assert (Hq : squeeze (expand_dims0 a) = squeeze a) by reflexivity.
  split.
  - unfold _preprocess_batch_or_single_input, np_array.
    cbn [forallb rbind length map concat]. rewrite app_nil_r.
    change (squeeze (mk_ndarray (1 :: shape a) (data a)))
      with (squeeze (expand_dims0 a)).
    now rewrite Hq.
  - rewrite !normalize_single. now rewrite Hq.
Qed.

(** X5: a batch of one, of shape (1,H,W,C) with none of H, W, C equal to
    one, is returned unchanged. *)
Theorem normalize_batch_of_one a H W C :
  shape a = [1; H; W; C] -> H <> 1 -> W <> 1 -> C <> 1 ->
  _preprocess_batch_or_single_input (Single a) = Ok a.
Proof.
  intros Hs HH HW HC. rewrite normalize_single.
  destruct a as [s d]. cbn [shape] in Hs. subst s.
  unfold squeeze, expand_dims0. cbn [shape data filter Nat.eqb negb].
  apply Nat.eqb_neq in HH, HW, HC. rewrite HH, HW, HC. reflexivity.
Qed.

End NormalizerMore.

(** ** More on the dispatcher, and the two helpers in sequence *)

Section PipelineMore.

Context {A : Type}.

Implicit Types (self : Demography A) (a b : ndarray A) (i : input A)
  (imgs : list (ndarray A)).

Lemma pipeline_ok self i b :
  _preprocess_batch_or_single_input i = Ok b ->
  predict_pipeline self i = _predict_internal self b.
Proof.
  intros Hb. unfold predict_pipeline, bind, lift. rewrite Hb.
  now destruct (_predict_internal self b).
Qed.

Lemma normalize_stack imgs (s : list nat) :
  imgs <> [] -> Forall (fun a => shape a = s) imgs ->
  _preprocess_batch_or_single_input (ImgList imgs)
  = _preprocess_batch_or_single_input
      (Single (mk_ndarray (length imgs :: s) (concat (map (@data A) imgs)))).
Proof.
  intros Hne Hall. apply normalize_list_as_single.
  now apply np_array_same_shape.
Qed.

(** X6: an empty list is normalised to an empty 1-D array, which a
    configured model's dispatcher refuses with the assertion error, without
    calling the model. *)
Theorem pipeline_empty_list self :
  has_model_name self = true ->
  _preprocess_batch_or_single_input (@ImgList A []) = Ok (mk_ndarray [0] [])
  /\ predict_pipeline self (ImgList []) = ([], Raise not_4d).
Proof.
  intros Hn. split; [reflexivity |].
  rewrite (@pipeline_ok self (ImgList []) (mk_ndarray [0] []) eq_refl).
  now rewrite (predict_internal_past_name self _ Hn).
Qed.

(** X7: a list of K >= 2 images of shape (H,W,1), H and W not one, is not
    treated as a batch: it is normalised to shape (1,K,H,W), and the
    dispatcher makes one legacy call on an "image" of shape (K,H,W) that
    holds all K images. *)
Theorem pipeline_grayscale_list_is_one_image self imgs H W :
  has_model_name self = true ->
  2 <= length imgs ->
  Forall (fun a => shape a = [H; W; 1]) imgs ->
  H <> 1 -> W <> 1 ->
  let stacked := concat (map (@data A) imgs) in
  _preprocess_batch_or_single_input (ImgList imgs)
  = Ok (mk_ndarray [1; length imgs; H; W] stacked)
  /\ predict_pipeline self (ImgList imgs)
     = ([EvCall (mk_ndarray [length imgs; H; W] stacked) false],
        legacy_single_sample (model self)
          (mk_ndarray [length imgs; H; W] stacked)).
Proof.
  intros Hn HK Hall HH HW stacked.
  assert (Hne : imgs <> []) by (destruct imgs; [cbn in HK; lia | discriminate]).
  assert (Hnorm : _preprocess_batch_or_single_input (ImgList imgs)
                  = Ok (mk_ndarray [1; length imgs; H; W] stacked)).
  { rewrite (normalize_stack Hne Hall), normalize_single.
    unfold squeeze, expand_dims0. cbn [shape data filter Nat.eqb negb].
    apply Nat.eqb_neq in HH, HW. rewrite HH, HW.
    replace (length imgs =? 1) with false by (symmetry; apply Nat.eqb_neq; lia).
    reflexivity. }
  split; [exact Hnorm |].
  rewrite (pipeline_ok self _ Hnorm).
  exact (predict_internal_4d self 1 (length imgs) H W stacked Hn).
Qed.

(** X8: for a single image of shape (H,W,C) with no axis of length one,
    a configured model's normaliser and dispatcher together make exactly
    one legacy call, on the image as it was given, in inference mode. *)
Theorem pipeline_single_image self a H W C :
  has_model_name self = true ->
  shape a = [H; W; C] -> H <> 1 -> W <> 1 -> C <> 1 ->
  predict_pipeline self (Single a)
  = ([EvCall a false], legacy_single_sample (model self) a).
Proof.
  intros Hn Hs HH HW HC. destruct a as [s els]. cbn [shape] in Hs. subst s.
  assert (Hnorm : _preprocess_batch_or_single_input
                    (Single (mk_ndarray [H; W; C] els))
                  = Ok (mk_ndarray [1; H; W; C] els)).
  { rewrite normalize_single. unfold squeeze, expand_dims0.
    cbn [shape data filter]. apply Nat.eqb_neq in HH, HW, HC.
    now rewrite HH, HW, HC. }
  rewrite (pipeline_ok self _ Hnorm).
  exact (predict_internal_4d self 1 H W C els Hn).
Qed.

(** X9: for a list of K >= 2 images of one shape (H,W,C) with no axis of
    length one, the two helpers together make exactly one call,
    predict_on_batch on the K images stacked in the order of the list. *)
Theorem pipeline_image_list self imgs H W C :
  has_model_name self = true ->
  2 <= length imgs ->
  Forall (fun a => shape a = [H; W; C]) imgs ->
  H <> 1 -> W <> 1 -> C <> 1 ->
  let batch :=
    mk_ndarray [length imgs; H; W; C] (concat (map (@data A) imgs)) in
  predict_pipeline self (ImgList imgs)
  = ([EvPredictOnBatch batch], predict_on_batch (model self) batch).
Proof.
  intros Hn HK Hall HH HW HC batch.
  assert (Hne : imgs <> []) by (destruct imgs; [cbn in HK; lia | discriminate]).
  assert (HK1 : (length imgs =? 1) = false) by (apply Nat.eqb_neq; lia).
  assert (Hnorm : _preprocess_batch_or_single_input (ImgList imgs) = Ok batch).
  { rewrite (normalize_stack Hne Hall), normalize_single.
    unfold squeeze, expand_dims0. cbn [shape data filter].
    apply Nat.eqb_neq in HH, HW, HC. now rewrite HK1, HH, HW, HC. }
  rewrite (pipeline_ok self _ Hnorm).
  assert (Hrun := predict_internal_4d self (length imgs) H W C
                    (concat (map (@data A) imgs)) Hn).
  rewrite HK1 in Hrun. exact Hrun.
Qed.

(** X10: whatever the instance and the array, the dispatcher calls the
    model at most once, and never with training=True. *)
Theorem predict_internal_one_call_no_training self b :
  length (trace (_predict_internal self b)) <= 1
  /\ forall x training,
       In (EvCall x training) (trace (_predict_internal self b)) ->
       training = false.
Proof.
  destruct (has_model_name self) eqn:Hn.
  - destruct (Nat.eq_dec (ndim b) 4) as [Hd | Hd].
    + destruct b as [s els]. unfold ndim in Hd. cbn [shape] in Hd.
      destruct s as [| d0 [| H [| W [| C [| ? ?]]]]]; try discriminate.
      rewrite (predict_internal_4d self d0 H W C els Hn).
      destruct (d0 =? 1); cbn [trace fst length In]; split; try lia.
      * intros x t [Hev | []]. now injection Hev.
      * intros x t [Hev | []]. discriminate.
    + rewrite (predict_internal_past_name self b Hn). apply Nat.eqb_neq in Hd.
      rewrite Hd. cbn. split; [lia | now intros].
  - unfold has_model_name in Hn. unfold _predict_internal.
    destruct (model_name self) as [name |]; cbn [getattr].
    + rewrite bind_lift_ok, Hn. cbn. split; [lia | now intros].
    + cbn. split; [lia | now intros].
Qed.

(** X11: an empty batch, of shape (0,H,W,C), is not a single image: a
    configured model's dispatcher hands it to predict_on_batch. *)
Theorem predict_internal_empty_batch self b H W C :
  has_model_name self = true ->
  shape b = [0; H; W; C] ->
  _predict_internal self b
  = ([EvPredictOnBatch b], predict_on_batch (model self) b).
Proof.
  intros Hn Hs. destruct b as [s els]. cbn [shape] in Hs. subst s.
  exact (predict_internal_4d self 0 H W C els Hn).
Qed.

(** X12: on the single-image path the dispatcher indexes the model's
    output with [0, :].  An output with fewer than two axes, or with no
    row, makes it raise IndexError; any other output of shape (d, ...)
    gives a result whose shape is the output's without its first axis. *)
Theorem predict_internal_single_result_shape self b H W C t :
  has_model_name self = true ->
  shape b = [1; H; W; C] ->
  call (model self) (mk_ndarray [H; W; C] (data b)) false = Ok t ->
  (ndim (numpy t) < 2 ->
   exists msg, outcome (_predict_internal self b) = Raise (IndexError msg))
  /\ (forall d1 s, shape (numpy t) = 0 :: d1 :: s ->
        exists msg, outcome (_predict_internal self b) = Raise (IndexError msg))
  /\ (forall d d1 s, shape (numpy t) = S d :: d1 :: s ->
        exists v, outcome (_predict_internal self b) = Ok v
                  /\ shape v = d1 :: s).
Proof.
  intros Hn Hs Ht. destruct b as [sb els]. cbn [shape] in Hs. subst sb.
  cbn [data] in Ht.
  rewrite (predict_internal_4d self 1 H W C els Hn). cbn [Nat.eqb].
  unfold outcome, legacy_single_sample. cbn [snd]. rewrite Ht. cbn [rbind].
  unfold getitem_0_all, getitem. split; [| split].
  - intros Hd. apply Nat.ltb_lt in Hd. rewrite Hd. now eexists.
  - intros d1 s Hsh. unfold ndim. rewrite Hsh. now eexists.
  - intros d d1 s Hsh. unfold ndim. rewrite Hsh. cbn [length Nat.ltb Nat.leb].
    eexists. split; reflexivity.
Qed.

End PipelineMore.

(** ** More on Buffalo_L *)

Section PiecesFacts.

Context {A : Type}.

Implicit Types (l : list A) (ls : list (list A)).

Lemma pieces_count n len l : length (pieces n len l) = n.
Proof.
  revert l. induction n as [| n IH]; intros l; [reflexivity |].
  cbn [pieces length]. now rewrite IH.
Qed.

Lemma pieces_length_each n len l :
  length l = n * len ->
  Forall (fun x => length x = len) (pieces n len l).
Proof.
  revert l. induction n as [| n IH]; intros l Hl; [constructor |].
  cbn [pieces]. constructor.
  - rewrite length_firstn. lia.
  - apply IH. rewrite length_skipn. lia.
Qed.

Lemma concat_pieces n len l :
  length l = n * len -> concat (pieces n len l) = l.
Proof.
  revert l. induction n as [| n IH]; intros l Hl.
  - destruct l; [reflexivity | discriminate].
  - cbn [pieces concat]. rewrite IH by (rewrite length_skipn; lia).
    apply firstn_skipn.
Qed.

Lemma pieces_concat len ls :
  Forall (fun x => length x = len) ls ->
  pieces (length ls) len (concat ls) = ls.
Proof.
  induction 1 as [| x ls Hx _ IH]; [reflexivity |].
  cbn [length pieces concat].
  assert (Hf : firstn len x = x) by (rewrite <- Hx; apply firstn_all).
  assert (Hsk : skipn len x = []) by (rewrite <- Hx; apply skipn_all).
  rewrite firstn_app, skipn_app, Hf, Hsk, Hx, Nat.sub_diag.
  cbn [firstn skipn app]. now rewrite app_nil_r, IH.
Qed.

Lemma nth_error_pieces n len l k :
  k < n ->
  nth_error (pieces n len l) k = Some (firstn len (skipn (k * len) l)).
Proof.
  revert l k. induction n as [| n IH]; intros l k Hk; [lia |].
  destruct k as [| k]; [reflexivity |].
  cbn [pieces nth_error]. rewrite IH by lia.
  rewrite skipn_skipn. do 3 f_equal. lia.
Qed.

Lemma pieces_one n l :
  length l = n -> pieces n 1 l = map (fun x => [x]) l.
Proof.
  revert l. induction n as [| n IH]; intros [| x l] Hl; try discriminate;
    [reflexivity |].
  cbn [pieces firstn skipn map]. rewrite IH; [reflexivity |].
  now injection Hl.
Qed.

Lemma concat_rev_singletons l :
  concat (rev (map (fun x => [x]) l)) = rev l.
Proof.
  induction l as [| x l IH]; [reflexivity |].
  cbn [map rev]. rewrite concat_app, IH. reflexivity.
Qed.

(** On a 3-D array the channel reversal reverses each pixel's values. *)
Lemma reverse_axis2_3d H W C (els : list A) :
  length els = H * W * C ->
  reverse_axis2 (mk_ndarray [H; W; C] els)
  = Ok (mk_ndarray [H; W; C] (concat (map (@rev A) (pieces (H * W) C els)))).
Proof.
  intros Hl. unfold reverse_axis2. cbn [shape data size_of fold_right].
  rewrite Nat.mul_1_r. do 3 f_equal.
  apply map_ext_in. intros blk Hin.
  assert (Hall := pieces_length_each (H * W) C els Hl).
  rewrite Forall_forall in Hall.
  rewrite (@pieces_one C blk (Hall blk Hin)). apply concat_rev_singletons.
Qed.

Lemma reversed_length H W C (els : list A) :
  length els = H * W * C ->
  length (concat (map (@rev A) (pieces (H * W) C els))) = H * W * C.
Proof.
  intros Hl. rewrite (@length_concat_same A C).
  - now rewrite length_map, pieces_count.
  - apply Forall_forall. intros x Hx. apply in_map_iff in Hx.
    destruct Hx as [y [<- Hy]]. rewrite length_rev.
    assert (Hall := pieces_length_each (H * W) C els Hl).
    rewrite Forall_forall in Hall. now apply Hall.
Qed.

(** Reversing the channels twice gives the array back. *)
Lemma reverse_axis2_twice H W C (els : list A) :
  length els = H * W * C ->
  rbind (reverse_axis2 (mk_ndarray [H; W; C] els)) (@reverse_axis2 A)
  = Ok (mk_ndarray [H; W; C] els).
Proof.
  intros Hl. rewrite (@reverse_axis2_3d H W C els Hl). cbn [rbind].
  rewrite (@reverse_axis2_3d H W C _ (@reversed_length H W C els Hl)).
  do 2 f_equal.
  assert (Hall : Forall (fun x => length x = C)
                   (map (@rev A) (pieces (H * W) C els))).
  { apply Forall_forall. intros x Hx. apply in_map_iff in Hx.
    destruct Hx as [y [<- Hy]]. rewrite length_rev.
    assert (Hp := pieces_length_each (H * W) C els Hl).
    rewrite Forall_forall in Hp. now apply Hp. }
  assert (Hcount : length (map (@rev A) (pieces (H * W) C els)) = H * W)
    by now rewrite length_map, pieces_count.
  rewrite <- Hcount at 1. rewrite (@pieces_concat C _ Hall).
  rewrite map_map.
  rewrite (map_ext (fun x => rev (rev x)) (fun x => x))
    by apply rev_involutive.
  rewrite map_id. now apply concat_pieces.
Qed.

(** The pixel at (i,j) of the reversed image is the reversed pixel. *)
Lemma reversed_pixel H W C (els : list A) i j :
  length els = H * W * C -> i < H -> j < W ->
  pixel (mk_ndarray [H; W; C]
           (concat (map (@rev A) (pieces (H * W) C els)))) i j
  = rev (pixel (mk_ndarray [H; W; C] els) i j).
Proof.
  intros Hl Hi Hj. unfold pixel. cbn [shape data].
  assert (Hk : i * W + j < H * W) by nia.
  assert (Hall : Forall (fun x => length x = C)
                   (map (@rev A) (pieces (H * W) C els))).
  { apply Forall_forall. intros x Hx. apply in_map_iff in Hx.
    destruct Hx as [y [<- Hy]]. rewrite length_rev.
    assert (Hp := pieces_length_each (H * W) C els Hl).
    rewrite Forall_forall in Hp. now apply Hp. }
  apply (@slice_concat A C _ Hall (i * W + j)).
  apply map_nth_error. now apply nth_error_pieces.
Qed.

End PiecesFacts.

Section BuffaloMore.

Context {A : Type}.

Implicit Types (img r : ndarray A) (self : Buffalo_L.Buffalo_L A).

Lemma shape_eqb_neq (s t : list nat) : s <> t -> shape_eqb s t = false.
Proof.
  unfold shape_eqb. now destruct (list_eq_dec Nat.eq_dec s t).
Qed.

Lemma reverse_axis2_shape img r :
  reverse_axis2 img = Ok r -> shape r = shape img.
Proof.
  unfold reverse_axis2.
  destruct (shape img) as [| d0 [| d1 [| d2 rest]]] eqn:E; try discriminate.
  intros Hr. injection Hr as <-. reflexivity.
Qed.

Lemma preprocess_batch_of_one H W C (els : list A) :
  Buffalo_L.preprocess (mk_ndarray [1; H; W; C] els)
  = reverse_axis2 (mk_ndarray [H; W; C] (firstn (size_of [H; W; C]) els)).
Proof. reflexivity. Qed.

Lemma preprocess_not_single d0 H W C (els : list A) :
  d0 <> 1 ->
  Buffalo_L.preprocess (mk_ndarray [d0; H; W; C] els) = Raise not_a_batch.
Proof.
  intros Hd. unfold Buffalo_L.preprocess, shape_0.
  cbn [shape length Nat.eqb rbind]. apply Nat.eqb_neq in Hd. now rewrite Hd.
Qed.

Lemma preprocess_3d img :
  shape img = [112; 112; 3] ->
  Buffalo_L.preprocess img = reverse_axis2 img.
Proof.
  intros Hs. unfold Buffalo_L.preprocess. rewrite Hs, shape_eqb_refl.
  reflexivity.
Qed.

Lemma preprocess_other img :
  ndim img <> 4 -> shape img <> [112; 112; 3] ->
  Buffalo_L.preprocess img = Raise not_112.
Proof.
  intros Hd Hs. unfold Buffalo_L.preprocess. unfold ndim in Hd.
  apply Nat.eqb_neq in Hd. rewrite Hd, (shape_eqb_neq Hs).
  cbn [negb]. now rewrite orb_true_r.
Qed.

(** Which arrays [preprocess] lets through, and with what shape. *)
Lemma preprocess_ok_shapes img r :
  Buffalo_L.preprocess img = Ok r ->
  (exists H W C, shape img = [1; H; W; C] /\ shape r = [H; W; C])
  \/ (shape img = [112; 112; 3] /\ shape r = [112; 112; 3]).
Proof.
  intros Hr. destruct (Nat.eq_dec (ndim img) 4) as [Hd | Hd].
  - left. destruct img as [s els]. unfold ndim in Hd. cbn [shape] in Hd.
    destruct s as [| d0 [| H [| W [| C [| ? ?]]]]]; try discriminate.
    destruct (Nat.eq_dec d0 1) as [-> | Hd0].
    + exists H, W, C. split; [reflexivity |].
      rewrite preprocess_batch_of_one in Hr.
      now rewrite (reverse_axis2_shape _ Hr).
    + rewrite (preprocess_not_single H W C els Hd0) in Hr. discriminate.
  - right. destruct (list_eq_dec Nat.eq_dec (shape img) [112; 112; 3])
      as [Hs | Hs].
    + split; [exact Hs |]. rewrite (preprocess_3d _ Hs) in Hr.
      now rewrite (reverse_axis2_shape _ Hr).
    + rewrite (@preprocess_other img Hd Hs) in Hr. discriminate.
Qed.

(** X13: [preprocess] succeeds exactly on a batch of one, of shape
    (1,H,W,C) for any H, W, C, and on a bare image of shape (112,112,3). *)
Theorem buffalo_preprocess_accepts_iff img :
  (exists r, Buffalo_L.preprocess img = Ok r)
  <-> (exists H W C, shape img = [1; H; W; C])
      \/ shape img = [112; 112; 3].
Proof.
  split.
  - intros [r Hr]. destruct (preprocess_ok_shapes _ Hr)
      as [[H [W [C [Hs _]]]] | [Hs _]]; [left; now exists H, W, C | now right].
  - intros [[H [W [C Hs]]] | Hs].
    + destruct img as [s els]. cbn [shape] in Hs. subst s.
      rewrite preprocess_batch_of_one. unfold reverse_axis2. cbn [shape].
      now eexists.
    + rewrite (preprocess_3d _ Hs). unfold reverse_axis2. rewrite Hs.
      now eexists.
Qed.

(** X14: an array that has not four axes and is not of shape (112,112,3)
    is refused with the ValueError that names that shape, and [forward]
    passes the error on without calling [get_feat]. *)
Theorem buffalo_wrong_shape_refused img :
  ndim img <> 4 -> shape img <> [112; 112; 3] ->
  Buffalo_L.preprocess img = Raise not_112
  /\ forall self, Buffalo_L.forward self img = ([], Raise not_112).
Proof.
  intros Hd Hs. assert (Hp := @preprocess_other img Hd Hs).
  split; [exact Hp |]. intros self. unfold Buffalo_L.forward. now rewrite Hp.
Qed.

(** X15: the (112,112,3) check does not apply to a batch of one: whatever
    H, W and C are, an array of shape (1,H,W,C) is accepted, and comes out
    as the image of shape (H,W,C) with the channel values of every pixel
    in reverse order. *)
Theorem buffalo_batch_of_one_any_size img H W C :
  shape img = [1; H; W; C] -> wf img ->
  exists r, Buffalo_L.preprocess img = Ok r
            /\ shape r = [H; W; C]
            /\ wf r
            /\ forall i j, i < H -> j < W ->
                 pixel r i j
                 = rev (pixel (mk_ndarray [H; W; C] (data img)) i j).
Proof.
  intros Hs Hwf. destruct img as [s els]. cbn [shape] in Hs. subst s.
  unfold wf in Hwf. cbn [shape data size_of fold_right] in Hwf.
  assert (Hl : length els = H * W * C) by lia.
  rewrite preprocess_batch_of_one.
  replace (firstn (size_of [H; W; C]) els) with els.
  2:{ symmetry. apply firstn_all2. cbn [size_of fold_right]. lia. }
  rewrite (reverse_axis2_3d H W C els Hl). eexists. split; [reflexivity |].
  split; [reflexivity |]. split.
  - unfold wf. cbn [shape data size_of fold_right].
    rewrite (reversed_length H W C els Hl). lia.
  - intros i j Hi Hj. cbn [data]. now apply reversed_pixel.
Qed.

(** X16: on a bare image of shape (112,112,3) [preprocess] keeps the shape
    and reverses the three channel values of every pixel (RGB to BGR). *)
Theorem buffalo_reverses_every_pixel img :
  shape img = [112; 112; 3] -> wf img ->
  exists r, Buffalo_L.preprocess img = Ok r
            /\ shape r = [112; 112; 3]
            /\ forall i j, i < 112 -> j < 112 ->
                 pixel r i j = rev (pixel img i j).
Proof.
  intros Hs Hwf. rewrite (preprocess_3d _ Hs).
  destruct img as [s els]. cbn [shape] in Hs. subst s.
  unfold wf in Hwf. cbn [shape data size_of fold_right] in Hwf.
  assert (Hl : length els = 112 * 112 * 3) by lia.
  rewrite (reverse_axis2_3d 112 112 3 els Hl). eexists.
  split; [reflexivity |]. split; [reflexivity |].
  intros i j Hi Hj. now apply reversed_pixel.
Qed.

(** X17: on a bare image of shape (112,112,3), preprocessing the
    preprocessed image gives the image back. *)
Theorem buffalo_preprocess_twice img :
  shape img = [112; 112; 3] -> wf img ->
  rbind (Buffalo_L.preprocess img) (@Buffalo_L.preprocess A) = Ok img.
Proof.
  intros Hs Hwf. rewrite (preprocess_3d _ Hs).
  destruct img as [s els]. cbn [shape] in Hs. subst s.
  unfold wf in Hwf. cbn [shape data size_of fold_right] in Hwf.
  assert (Hl : length els = 112 * 112 * 3) by lia.
  assert (Htwice := reverse_axis2_twice 112 112 3 els Hl).
  rewrite (reverse_axis2_3d 112 112 3 els Hl) in Htwice |- *.
  cbn [rbind] in Htwice |- *.
  rewrite preprocess_3d by reflexivity. exact Htwice.
Qed.

(** X18: [forward] calls [get_feat] at most once, exactly when
    [preprocess] succeeds, and on what [preprocess] returned, which has
    three axes: [get_feat] never receives a batch. *)
Theorem buffalo_forward_calls self img :
  length (fst (Buffalo_L.forward self img)) <= 1
  /\ (forall x, In x (fst (Buffalo_L.forward self img)) ->
        Buffalo_L.preprocess img = Ok x /\ ndim x = 3)
  /\ (fst (Buffalo_L.forward self img) = []
      <-> exists e, Buffalo_L.preprocess img = Raise e).
Proof.
  unfold Buffalo_L.forward.
  destruct (Buffalo_L.preprocess img) as [x | e] eqn:Hp; cbn [fst length In].
  - split; [lia |]. split.
    + intros y [<- | []]. split; [reflexivity |].
      unfold ndim.
      destruct (preprocess_ok_shapes _ Hp) as [[H [W [C [_ ->]]]] | [_ ->]];
        reflexivity.
    + split; [discriminate | intros [e He]; discriminate].
  - split; [lia |]. split; [now intros y [] |].
    split; [now exists e | reflexivity].
Qed.

(** X19: when [get_feat] returns an array, [forward] returns its elements
    in row-major order if it has two axes or more, and raises ValueError
    if it has fewer, as a flat 1-D vector has. *)
Theorem buffalo_forward_array_embedding self img x (emb : ndarray A) :
  Buffalo_L.preprocess img = Ok x ->
  Buffalo_L.get_feat (Buffalo_L.model self) x = Ok (Buffalo_L.EmbNdarray emb) ->
  (2 <= ndim emb -> Buffalo_L.forward self img = ([x], Ok (data emb)))
  /\ (ndim emb < 2 ->
      exists msg, Buffalo_L.forward self img = ([x], Raise (ValueError msg))).
Proof.
  intros Hp Hg. unfold Buffalo_L.forward. rewrite Hp, Hg. cbn [rbind].
  split; intros Hd.
  - replace (1 <? ndim emb) with true by (symmetry; apply Nat.ltb_lt; lia).
    reflexivity.
  - replace (1 <? ndim emb) with false by (symmetry; apply Nat.ltb_ge; lia).
    now eexists.
Qed.

End BuffaloMore.

(** ** The further theorems at concrete inputs *)

Lemma normalize_result_is_fixed_witness :
  _preprocess_batch_or_single_input
    (ImgList [arange [2; 2; 1]; arange [2; 2; 1]])
  = Ok (mk_ndarray [1; 2; 2; 2] [0; 1; 2; 3; 0; 1; 2; 3])
  /\ _preprocess_batch_or_single_input
       (Single (mk_ndarray [1; 2; 2; 2] [0; 1; 2; 3; 0; 1; 2; 3]))
     = Ok (mk_ndarray [1; 2; 2; 2] [0; 1; 2; 3; 0; 1; 2; 3]).
Proof.
  split; [reflexivity |].
  apply (@normalize_result_is_fixed nat
           (ImgList [arange [2; 2; 1]; arange [2; 2; 1]])).
  reflexivity.
Defined.

Lemma normalize_batch_of_one_witness :
  shape (arange [1; 2; 2; 3]) = [1; 2; 2; 3]
  /\ _preprocess_batch_or_single_input (Single (arange [1; 2; 2; 3]))
     = Ok (arange [1; 2; 2; 3]).
Proof.
  split; [reflexivity |].
  apply (@normalize_batch_of_one nat (arange [1; 2; 2; 3]) 2 2 3);
    [reflexivity | discriminate | discriminate | discriminate].
Defined.

Lemma pipeline_empty_list_witness :
  has_model_name configured = true
  /\ predict_pipeline configured (ImgList []) = ([], Raise not_4d).
Proof.
  split; [reflexivity |].
  exact (proj2 (@pipeline_empty_list nat configured eq_refl)).
Defined.

Lemma pipeline_grayscale_list_is_one_image_witness :
  _preprocess_batch_or_single_input
    (ImgList [arange [2; 3; 1]; arange [2; 3; 1]])
  = Ok (mk_ndarray [1; 2; 2; 3] (seq 0 6 ++ seq 0 6))
  /\ predict_pipeline configured (ImgList [arange [2; 3; 1]; arange [2; 3; 1]])
     = ([EvCall (mk_ndarray [2; 2; 3] (seq 0 6 ++ seq 0 6)) false],
        legacy_single_sample toy_model
          (mk_ndarray [2; 2; 3] (seq 0 6 ++ seq 0 6))).
Proof.
  apply (@pipeline_grayscale_list_is_one_image nat configured
           [arange [2; 3; 1]; arange [2; 3; 1]] 2 3).
  - reflexivity.
  - apply le_n.
  - repeat constructor.
  - discriminate.
  - discriminate.
Defined.

Lemma pipeline_single_image_witness :
  has_model_name configured = true
  /\ shape (arange [2; 2; 3]) = [2; 2; 3]
  /\ predict_pipeline configured (Single (arange [2; 2; 3]))
     = ([EvCall (arange [2; 2; 3]) false],
        legacy_single_sample toy_model (arange [2; 2; 3])).
Proof.
  split; [reflexivity | split; [reflexivity |]].
  apply (@pipeline_single_image nat configured (arange [2; 2; 3]) 2 2 3);
    [reflexivity | reflexivity | discriminate | discriminate | discriminate].
Defined.

Lemma pipeline_image_list_witness :
  predict_pipeline configured (ImgList [arange [2; 2; 3]; arange [2; 2; 3]])
  = ([EvPredictOnBatch (mk_ndarray [2; 2; 2; 3] (seq 0 12 ++ seq 0 12))],
     predict_on_batch toy_model
       (mk_ndarray [2; 2; 2; 3] (seq 0 12 ++ seq 0 12))).
Proof.
  apply (@pipeline_image_list nat configured
           [arange [2; 2; 3]; arange [2; 2; 3]] 2 2 3).
  - reflexivity.
  - apply le_n.
  - repeat constructor.
  - discriminate.
  - discriminate.
  - discriminate.
Defined.

Lemma predict_internal_empty_batch_witness :
  has_model_name configured = true
  /\ shape (arange [0; 2; 2; 3]) = [0; 2; 2; 3]
  /\ _predict_internal configured (arange [0; 2; 2; 3])
     = ([EvPredictOnBatch (arange [0; 2; 2; 3])],
        predict_on_batch toy_model (arange [0; 2; 2; 3])).
Proof.
  split; [reflexivity | split; [reflexivity |]].
  apply (@predict_internal_empty_batch nat configured
           (arange [0; 2; 2; 3]) 2 2 3); reflexivity.
Defined.

Lemma predict_internal_single_result_shape_witness :
  has_model_name configured = true
  /\ shape (arange [1; 2; 2; 3]) = [1; 2; 2; 3]
  /\ call toy_model (arange [2; 2; 3]) false
     = Ok (mk_Tensor (mk_ndarray [1; 2] [12; 0]))
  /\ exists v,
       outcome (_predict_internal configured (arange [1; 2; 2; 3])) = Ok v
       /\ shape v = [2].
Proof.
  split; [reflexivity | split; [reflexivity | split; [reflexivity |]]].
  destruct (@predict_internal_single_result_shape nat configured
              (arange [1; 2; 2; 3]) 2 2 3
              (mk_Tensor (mk_ndarray [1; 2] [12; 0]))
              eq_refl eq_refl eq_refl) as [_ [_ Hrows]].
  exact (Hrows 0 2 [] eq_refl).
Defined.

Lemma buffalo_wrong_shape_refused_witness :
  ndim (arange [2; 2; 3]) <> 4
  /\ shape (arange [2; 2; 3]) <> [112; 112; 3]
  /\ Buffalo_L.preprocess (arange [2; 2; 3]) = Raise not_112
  /\ Buffalo_L.forward toy_recognition (arange [2; 2; 3])
     = ([], Raise not_112).
Proof.
  assert (Hd : ndim (arange [2; 2; 3]) <> 4) by discriminate.
  assert (Hs : shape (arange [2; 2; 3]) <> [112; 112; 3]) by discriminate.
  destruct (@buffalo_wrong_shape_refused nat (arange [2; 2; 3]) Hd Hs)
    as [Hp Hf].
  split; [exact Hd | split; [exact Hs | split; [exact Hp |]]].
  exact (Hf toy_recognition).
Defined.

Lemma buffalo_batch_of_one_any_size_witness :
  shape (arange [1; 2; 2; 3]) = [1; 2; 2; 3]
  /\ wf (arange [1; 2; 2; 3])
  /\ exists r, Buffalo_L.preprocess (arange [1; 2; 2; 3]) = Ok r
               /\ shape r = [2; 2; 3]
               /\ wf r
               /\ forall i j, i < 2 -> j < 2 ->
                    pixel r i j
                    = rev (pixel (mk_ndarray [2; 2; 3]
                                    (data (arange [1; 2; 2; 3]))) i j).
Proof.
  split; [reflexivity | split; [reflexivity |]].
  apply (@buffalo_batch_of_one_any_size nat (arange [1; 2; 2; 3]) 2 2 3);
    reflexivity.
Defined.

Lemma buffalo_reverses_every_pixel_witness :
  shape (arange [112; 112; 3]) = [112; 112; 3]
  /\ exists r, Buffalo_L.preprocess (arange [112; 112; 3]) = Ok r
               /\ shape r = [112; 112; 3]
               /\ forall i j, i < 112 -> j < 112 ->
                    pixel r i j = rev (pixel (arange [112; 112; 3]) i j).
Proof.
  split; [reflexivity |].
  apply (@buffalo_reverses_every_pixel nat (arange [112; 112; 3]) eq_refl).
  apply length_seq.
Defined.

Lemma buffalo_preprocess_twice_witness :
  shape (arange [112; 112; 3]) = [112; 112; 3]
  /\ rbind (Buffalo_L.preprocess (arange [112; 112; 3]))
           (@Buffalo_L.preprocess nat)
     = Ok (arange [112; 112; 3]).
Proof.
  split; [reflexivity |].
  apply (@buffalo_preprocess_twice nat (arange [112; 112; 3]) eq_refl).
  apply length_seq.
Defined.

Lemma buffalo_forward_array_embedding_witness :
  Buffalo_L.preprocess (arange [1; 1; 2; 3])
  = Ok (mk_ndarray [1; 2; 3] [2; 1; 0; 5; 4; 3])
  /\ Buffalo_L.forward toy_recognition (arange [1; 1; 2; 3])
     = ([mk_ndarray [1; 2; 3] [2; 1; 0; 5; 4; 3]], Ok [6; 7]).
Proof.
  split; [reflexivity |].
  apply (proj1 (@buffalo_forward_array_embedding nat toy_recognition
                  (arange [1; 1; 2; 3])
                  (mk_ndarray [1; 2; 3] [2; 1; 0; 5; 4; 3])
                  (mk_ndarray [1; 2] [6; 7]) eq_refl eq_refl)).
  apply le_n.
Defined.

(** ** Which inputs reach the model *)

Section ReachMore.

Context {A : Type}.

Implicit Types (self : Demography A) (a b : ndarray A).

Lemma dispatch_not_4d self b :
  has_model_name self = true -> ndim b <> 4 ->
  _predict_internal self b = ([], Raise not_4d).
Proof.
  intros Hn Hd. rewrite (predict_internal_past_name self b Hn).
  apply Nat.eqb_neq in Hd. now rewrite Hd.
Qed.

Lemma dispatch_4d_one_call self b :
  has_model_name self = true -> ndim b = 4 ->
  exists ev, trace (_predict_internal self b) = [ev].
Proof.
  intros Hn Hd. destruct b as [s els]. unfold ndim in Hd. cbn [shape] in Hd.
  destruct s as [| d0 [| H [| W [| C [| ? ?]]]]]; try discriminate.
  rewrite (predict_internal_4d self d0 H W C els Hn).
  destruct (d0 =? 1); now eexists.
Qed.

(** X20: for a configured model and a bare array, the two helpers reach
    the model (with exactly one call) when three or four axes of the array
    have a length other than one; for every other array they raise the
    assertion error without calling the model. *)
Theorem pipeline_reaches_model_iff self a :
  has_model_name self = true ->
  (non_unit_axes a = 3 \/ non_unit_axes a = 4 ->
   exists ev, trace (predict_pipeline self (Single a)) = [ev])
  /\ (non_unit_axes a <> 3 -> non_unit_axes a <> 4 ->
      predict_pipeline self (Single a) = ([], Raise not_4d)).
Proof.
  intros Hn.
  destruct (normalize_single_rank a) as [r [Hr Hrank]].
  rewrite (pipeline_ok self _ Hr). split.
  - intros Hk. apply dispatch_4d_one_call; [exact Hn | now apply Hrank].
  - intros H3 H4. apply dispatch_not_4d; [exact Hn |].
    intros Hd. apply Hrank in Hd. destruct Hd; contradiction.
Qed.

(** X21: for an already batched array of shape (N,H,W,C), N other than
    one and none of H, W, C equal to one, the two helpers of a configured
    model make exactly one call, predict_on_batch on the array as given. *)
Theorem pipeline_batch_array self a N H W C :
  has_model_name self = true ->
  shape a = [N; H; W; C] -> N <> 1 -> H <> 1 -> W <> 1 -> C <> 1 ->
  predict_pipeline self (Single a)
  = ([EvPredictOnBatch a], predict_on_batch (model self) a).
Proof.
  intros Hn Hs HN HH HW HC. destruct a as [s els]. cbn [shape] in Hs. subst s.
  apply Nat.eqb_neq in HN, HH, HW, HC.
  assert (Hnorm : _preprocess_batch_or_single_input
                    (Single (mk_ndarray [N; H; W; C] els))
                  = Ok (mk_ndarray [N; H; W; C] els)).
  { rewrite normalize_single. unfold squeeze, expand_dims0.
    cbn [shape data filter]. now rewrite HN, HH, HW, HC. }
  rewrite (pipeline_ok self _ Hnorm).
  assert (Hrun := predict_internal_4d self N H W C els Hn).
  rewrite HN in Hrun. exact Hrun.
Qed.

(** X22: an empty batch, of shape (0,H,W,C), is refused by
    [Buffalo_L.preprocess] with the ValueError for batches, and [forward]
    does not call [get_feat]. *)
Theorem buffalo_empty_batch_refused (img : ndarray A) H W C :
  shape img = [0; H; W; C] ->
  Buffalo_L.preprocess img = Raise not_a_batch
  /\ forall self : Buffalo_L.Buffalo_L A,
       Buffalo_L.forward self img = ([], Raise not_a_batch).
Proof.
  intros Hs. destruct img as [s els]. cbn [shape] in Hs. subst s.
  assert (Hp : Buffalo_L.preprocess (mk_ndarray [0; H; W; C] els)
               = Raise not_a_batch)
    by (apply preprocess_not_single; discriminate).
  split; [exact Hp |]. intros self. unfold Buffalo_L.forward. now rewrite Hp.
Qed.

(** X23: a bare image of shape (112,112,3) and the batch of one that
    holds it are preprocessed to the same array, and [forward] gives the
    same calls and result for both. *)
Theorem buffalo_batch_of_one_same_as_image (img : ndarray A) :
  shape img = [112; 112; 3] -> wf img ->
  Buffalo_L.preprocess (expand_dims0 img) = Buffalo_L.preprocess img
  /\ forall self : Buffalo_L.Buffalo_L A,
       Buffalo_L.forward self (expand_dims0 img) = Buffalo_L.forward self img.
Proof.
  intros Hs Hwf.
  assert (Hp : Buffalo_L.preprocess (expand_dims0 img)
               = Buffalo_L.preprocess img).
  { rewrite (preprocess_3d _ Hs). destruct img as [s els].
    cbn [shape] in Hs. subst s. unfold expand_dims0. cbn [shape data].
    rewrite preprocess_batch_of_one. unfold wf in Hwf. cbn [shape data] in Hwf.
    now rewrite <- Hwf, firstn_all. }
  split; [exact Hp |]. intros self. unfold Buffalo_L.forward. now rewrite Hp.
Qed.

End ReachMore.

Lemma pipeline_reaches_model_iff_witness :
  has_model_name configured = true
  /\ (exists ev,
        trace (predict_pipeline configured (Single (arange [1; 2; 1; 2; 3])))
        = [ev])
  /\ predict_pipeline configured (Single (arange [2; 3; 1])) = ([], Raise not_4d).
Proof.
  split; [reflexivity |]. split.
  - apply (proj1 (@pipeline_reaches_model_iff nat configured
                    (arange [1; 2; 1; 2; 3]) eq_refl)).
    left. reflexivity.
  - apply (proj2 (@pipeline_reaches_model_iff nat configured
                    (arange [2; 3; 1]) eq_refl)); discriminate.
Defined.

Lemma pipeline_batch_array_witness :
  has_model_name configured = true
  /\ shape (arange [3; 2; 2; 3]) = [3; 2; 2; 3]
  /\ predict_pipeline configured (Single (arange [3; 2; 2; 3]))
     = ([EvPredictOnBatch (arange [3; 2; 2; 3])],
        predict_on_batch toy_model (arange [3; 2; 2; 3])).
Proof.
  split; [reflexivity | split; [reflexivity |]].
  apply (@pipeline_batch_array nat configured (arange [3; 2; 2; 3]) 3 2 2 3);
    [reflexivity | reflexivity | discriminate | discriminate | discriminate
    | discriminate].
Defined.

Lemma buffalo_empty_batch_refused_witness :
  shape (arange [0; 112; 112; 3]) = [0; 112; 112; 3]
  /\ Buffalo_L.preprocess (arange [0; 112; 112; 3]) = Raise not_a_batch
  /\ Buffalo_L.forward toy_recognition (arange [0; 112; 112; 3])
     = ([], Raise not_a_batch).
Proof.
  destruct (@buffalo_empty_batch_refused nat (arange [0; 112; 112; 3])
              112 112 3 eq_refl) as [Hp Hf].
  split; [reflexivity | split; [exact Hp | exact (Hf toy_recognition)]].
Defined.

Lemma buffalo_batch_of_one_same_as_image_witness :
  shape (arange [112; 112; 3]) = [112; 112; 3]
  /\ Buffalo_L.preprocess (expand_dims0 (arange [112; 112; 3]))
     = Buffalo_L.preprocess (arange [112; 112; 3])
  /\ Buffalo_L.forward toy_recognition (expand_dims0 (arange [112; 112; 3]))
     = Buffalo_L.forward toy_recognition (arange [112; 112; 3]).
Proof.
  destruct (@buffalo_batch_of_one_same_as_image nat (arange [112; 112; 3])
              eq_refl (length_seq (size_of [112; 112; 3]) 0)) as [Hp Hf].
  split; [reflexivity | split; [exact Hp | exact (Hf toy_recognition)]].
Defined.
